(** * Dumberg: shallow embedding of [dumbergapi.py] and [dumberg.py]

    Prices are modelled as exact rationals [Q] (the source works on pandas
    float64 columns); dates as (year, month, day) records; Python dicts as
    association lists with unique keys, kept in insertion order.  The market
    data provider (yfinance) is a set of Section variables: each query is a
    function of the symbol and of the requested period. *)

From Stdlib Require Import String Ascii List ZArith QArith Bool Lia.
Import ListNotations.
Open Scope string_scope.

(** ** Python dicts mapping strings to strings *)

Definition dict := list (string * string).

(** [d.get(k)] *)
Fixpoint dict_get (k : string) (d : dict) : option string :=
  match d with
  | [] => None
  | (k', v) :: rest => if String.eqb k k' then Some v else dict_get k rest
  end.

(** [d.get(k, default)] *)
Definition dict_get_default (k default : string) (d : dict) : string :=
  match dict_get k d with Some v => v | None => default end.

Definition dict_keys (d : dict) : list string := map fst d.
Definition dict_values (d : dict) : list string := map snd d.

(** [d[k] = v]: an existing key keeps its position, a new key goes last. *)
Fixpoint dict_set (k v : string) (d : dict) : dict :=
  match d with
  | [] => [(k, v)]
  | (k', v') :: rest =>
      if String.eqb k k' then (k', v) :: rest else (k', v') :: dict_set k v rest
  end.

(** ** Errors and the state of a [DumbergAPI] object *)

Inductive exn := KeyError (k : string).

Inductive result (A : Type) :=
| Ok (a : A)
| Err (e : exn).
Arguments Ok {A} a.
Arguments Err {A} e.

(** The only attribute of a [DumbergAPI] instance. *)
Record api := mkApi { company_dict : dict }.

(** [DumbergAPI.__init__] *)
Definition init_api : api := mkApi
  [("Apple Inc.", "AAPL");
   ("Microsoft Corp.", "MSFT");
   ("Alphabet Inc. (Google)", "GOOGL");
   ("Amazon.com Inc.", "AMZN");
   ("NVIDIA Corporation", "NVDA");
   ("Tesla Inc.", "TSLA");
   ("Berkshire Hathaway Inc.", "BRK-B");
   ("Meta Platforms Inc. (Facebook)", "META");
   ("Taiwan Semiconductor Manufacturing Company", "TSM");
   ("Johnson & Johnson", "JNJ")].

(** Methods run in a state-and-exception monad over the API object. *)
Definition M (A : Type) := api -> result (A * api).

Definition ret {A} (a : A) : M A := fun s => Ok (a, s).
Definition bind {A B} (m : M A) (k : A -> M B) : M B :=
  fun s => match m s with Ok (a, s') => k a s' | Err e => Err e end.
Definition raise {A} (e : exn) : M A := fun _ => Err e.
Definition get_dict : M dict := fun s => Ok (company_dict s, s).

Notation "x <- m ;; k" := (bind m (fun x => k))
  (at level 61, m at next level, right associativity).

Fixpoint mapM {A B} (f : A -> M B) (xs : list A) : M (list B) :=
  match xs with
  | [] => ret []
  | x :: rest => y <- f x;; ys <- mapM f rest;; ret (y :: ys)
  end.

(** [self.company_dict[k]] *)
Definition dict_index (k : string) : M string :=
  d <- get_dict;;
  match dict_get k d with Some v => ret v | None => raise (KeyError k) end.

(** ** Market data *)

Record date := mkDate { year : Z; month : Z; day : Z }.

(** One row of a [history] frame. *)
Record session := mkSession
  { s_date : date; s_open : Q; s_high : Q; s_low : Q; s_close : Q }.

Inductive period := P1d | P1y.

(** The fields of [Ticker.info] the code reads. *)
Record profile := mkProfile
  { longName : option string; marketCap : option Q }.

(** [1e9] *)
Definition billion : Q := inject_Z (10 ^ 9).

(** ** pandas series operations on a column of closes *)

(** [fillna(method='pad')], run by [pct_change] before it divides. *)
Fixpoint pad_from (last : option Q) (xs : list (option Q)) : list (option Q) :=
  match xs with
  | [] => []
  | None :: rest => last :: pad_from last rest
  | Some x :: rest => Some x :: pad_from (Some x) rest
  end.

Fixpoint pct_from (prev : option Q) (xs : list (option Q)) : list (option Q) :=
  match xs with
  | [] => []
  | x :: rest =>
      match prev, x with
      | Some p, Some c => Some (c / p - 1)
      | _, _ => None
      end :: pct_from x rest
  end.

(** [Series.pct_change()]: [data / data.shift(1) - 1] on the padded data;
    the first entry has no predecessor and is NaN ([None]). *)
Definition pct_change (xs : list (option Q)) : list (option Q) :=
  match pad_from None xs with
  | [] => []
  | x :: rest => None :: pct_from x rest
  end.

(** [Series.cumsum()] (skipna): NaN entries stay NaN and are skipped. *)
Fixpoint cumsum_from (acc : Q) (xs : list (option Q)) : list (option Q) :=
  match xs with
  | [] => []
  | None :: rest => None :: cumsum_from acc rest
  | Some x :: rest => Some (acc + x) :: cumsum_from (acc + x) rest
  end.

Definition cumsum (xs : list (option Q)) : list (option Q) := cumsum_from 0 xs.

(** [series * 100] *)
Definition scale100 (xs : list (option Q)) : list (option Q) :=
  map (option_map (fun x => x * 100)) xs.

(** [Series.dropna()] *)
Fixpoint dropna (xs : list (option Q)) : list Q :=
  match xs with
  | [] => []
  | None :: rest => dropna rest
  | Some x :: rest => x :: dropna rest
  end.

(** [data['Close'].pct_change().cumsum() * 100] *)
Definition returns_series (closes : list Q) : list (option Q) :=
  scale100 (cumsum (pct_change (map Some closes))).

(** ** Calendar quarters *)

Open Scope Z_scope.

(** Quarters are numbered consecutively: [year * 4 + (quarter - 1)]. *)
Definition quarter_index (d : date) : Z := year d * 4 + (month d - 1) / 3.

(** The label pandas gives the bin of [resample('Q')]: the quarter's last day. *)
Definition quarter_end (k : Z) : date :=
  let q := k mod 4 in
  mkDate (k / 4) (3 * (q + 1)) (if (q =? 0) || (q =? 3) then 31 else 30).

(** [last()] of one bin: the close of the latest session in the quarter. *)
Definition last_close_in (k : Z) (hist : list session) : option Q :=
  fold_left (fun acc s => if quarter_index (s_date s) =? k then Some (s_close s) else acc)
    hist None.

(** [data['Close'].resample('Q').last()] on a chronologically ordered history:
    one bin per quarter from the first session's to the last session's,
    an empty bin giving NaN. *)
Definition resample_q_last (hist : list session) : list (date * option Q) :=
  match hist with
  | [] => []
  | s0 :: _ =>
      let lo := quarter_index (s_date s0) in
      let hi := quarter_index (s_date (last hist s0)) in
      map (fun n => let k := lo + Z.of_nat n in (quarter_end k, last_close_in k hist))
        (seq 0 (Z.to_nat (hi - lo + 1)))
  end.

(** ** [strftime] *)

Fixpoint digits_from (fuel : nat) (n : Z) (acc : string) : string :=
  match fuel with
  | O => acc
  | S f =>
      let acc' := String (ascii_of_nat (48 + Z.to_nat (n mod 10))) acc in
      if n <? 10 then acc' else digits_from f (n / 10) acc'
  end.

(** Decimal digits of [n >= 0], left-padded with zeros to [width]. *)
Definition zero_pad (width : nat) (n : Z) : string :=
  let ds := digits_from 20 n "" in
  append (String.concat "" (repeat "0" (width - String.length ds))) ds.

(** [datetime.strftime] on Linux: Python hands the format to the C library's
    [strftime], which knows [%Y], [%m], [%d] and [%%]; glibc copies a
    conversion it does not know, such as [%q], to the output unchanged. *)
Fixpoint strftime (fmt : string) (d : date) : string :=
  match fmt with
  | EmptyString => EmptyString
  | String "%" (String c rest) =>
      let conv :=
        if Ascii.eqb c "Y" then zero_pad 4 (year d)
        else if Ascii.eqb c "m" then zero_pad 2 (month d)
        else if Ascii.eqb c "d" then zero_pad 2 (day d)
        else if Ascii.eqb c "%" then "%"
        else String "%" (String c EmptyString) in
      append conv (strftime rest d)
  | String c rest => String c (strftime rest d)
  end.

Close Scope Z_scope.

(** ** [str.upper()] on ASCII text *)

Definition ascii_upper (c : ascii) : ascii :=
  let n := nat_of_ascii c in
  if (97 <=? n)%nat && (n <=? 122)%nat then ascii_of_nat (n - 32)%nat else c.

Fixpoint upper (s : string) : string :=
  match s with
  | EmptyString => EmptyString
  | String c rest => String (ascii_upper c) (upper rest)
  end.

(** ** Rows and figures *)

(** A row of the frame built by [create_stock_dataframe]. *)
Record stock_row := mkRow
  { Company : string; Ticker : string;
    Current_Price : Q; Opening_Price : Q; Price_Change : Q }.

(** A row of the table built by [create_stock_table]: ticker, price shown
    (kept as the number, before the [${:.2f}] formatting), status and colour. *)
Record table_row := mkTableRow
  { t_Ticker : string; t_Price : Q; t_Status : string; t_Color : string }.

(** Python's [a > b] on prices. *)
Definition Qgtb (a b : Q) : bool := negb (Qle_bool a b).

Definition status_color (status : string) : string :=
  if String.eqb status "Up" then "#4af6c3" else "#ff433d".

(** ** The [DumbergAPI] methods and the dashboard callbacks *)

Section Dumberg.

(** [yf.Ticker(t).history(period=p)], rows in chronological order. *)
Variable history : string -> period -> list session.
(** [yf.Ticker(t).info] *)
Variable info : string -> profile.
(** [yf.download(t, start=a, end=b)] *)
Variable download : string -> string -> string -> list session.

(** [DumbergAPI.fetch_stock_data] *)
Definition fetch_stock_data (ticker : string) : M (option Q * option Q) :=
  match history ticker P1d with
  | s :: _ => ret (Some (s_close s), Some (s_open s))
  | [] => ret (None, None)
  end.

(** The loop of [create_stock_dataframe]. *)
Fixpoint stock_rows (tickers : list string) : M (list stock_row) :=
  match tickers with
  | [] => ret []
  | company :: rest =>
      d <- get_dict;;
      let ticker := dict_get_default company company d in
      p <- fetch_stock_data ticker;;
      rows <- stock_rows rest;;
      match p with
      | (Some current_price, Some opening_price) =>
          let price_change := current_price - opening_price in
          ret (mkRow company ticker current_price opening_price price_change :: rows)
      | _ => ret rows
      end
  end.

(** [DumbergAPI.create_stock_dataframe] (called with [*tickers]) *)
Definition create_stock_dataframe (tickers : list string) : M (list stock_row) :=
  d <- get_dict;;
  let tickers := match tickers with [] => dict_keys d | _ => tickers end in
  stock_rows tickers.

(** The status of one row in [create_stock_table]. *)
Definition row_status (row : stock_row) : string :=
  if Qgtb (Current_Price row) (Opening_Price row) then "Up" else "Down".

(** [DumbergAPI.create_stock_table] *)
Definition create_stock_table (stock_df : list stock_row) : M (list table_row) :=
  ret (map (fun row =>
              let status := row_status row in
              mkTableRow (Ticker row) (Current_Price row) status (status_color status))
           stock_df).

(** [stock.info.get('marketCap', 0) / 1e9] *)
Definition market_cap_of (ticker : string) : Q :=
  match marketCap (info ticker) with
  | Some v => v / billion
  | None => 0 / billion
  end.

(** The market-cap loop of [plot_donut_chart]. *)
Fixpoint market_caps (tickers : list string) : M (list Q) :=
  match tickers with
  | [] => ret []
  | ticker :: rest =>
      let market_cap := market_cap_of ticker in
      caps <- market_caps rest;;
      ret (market_cap :: caps)
  end.

(** [DumbergAPI.plot_donut_chart]: the pie's labels and values. *)
Definition plot_donut_chart (selected_companies : list string)
  : M (list string * list Q) :=
  tickers <- mapM dict_index selected_companies;;
  caps <- market_caps tickers;;
  ret (tickers, caps).

(** [DumbergAPI.plot_performance_chart]: the scatter's x and y, or the
    empty figure. *)
Definition plot_performance_chart (ticker : string)
  : M (option (list date * list (option Q))) :=
  let data := history ticker P1y in
  match data with
  | [] => ret None
  | _ => ret (Some (map s_date data, returns_series (map s_close data)))
  end.

(** [quarterly_data.pct_change() * 100], indexed by quarter-end date. *)
Definition quarterly_changes (data : list session) : list (date * option Q) :=
  let quarterly_data := resample_q_last data in
  combine (map fst quarterly_data) (scale100 (pct_change (map snd quarterly_data))).

(** [DumbergAPI.plot_waterfall_chart]: the [x] and [y] passed to
    [go.Waterfall], or the empty figure. *)
Definition plot_waterfall_chart (ticker : string) : M (option (list string * list Q)) :=
  let data := history ticker P1y in
  match data with
  | [] => ret None
  | _ =>
      let qc := quarterly_changes data in
      ret (Some (map (fun p => strftime "%Y-Q%q" (fst p)) qc, dropna (map snd qc)))
  end.

(** [DumbergAPI.plot_candlestick]: the sessions drawn. *)
Definition plot_candlestick : M (list session) :=
  ret (download "^GSPC" "2023-01-01" "2024-12-31").

(** The rows one identifier contributes to [create_stock_dataframe]. *)
Definition stock_row_of (d : dict) (company : string) : list stock_row :=
  let ticker := dict_get_default company company d in
  match history ticker P1d with
  | x :: _ => [mkRow company ticker (s_close x) (s_open x) (s_close x - s_open x)]
  | [] => []
  end.

(** [update_stock_table]: [None] is the Markdown prompt. *)
Definition update_stock_table (selected : list string) : M (option (list table_row)) :=
  match selected with
  | [] => ret None
  | _ => df <- create_stock_dataframe selected;;
         t <- create_stock_table df;; ret (Some t)
  end.

(** [update_donut_chart] *)
Definition update_donut_chart (selected : list string)
  : M (option (list string * list Q)) :=
  match selected with
  | [] => ret None
  | _ => fig <- plot_donut_chart selected;; ret (Some fig)
  end.

Definition performance_tab := (string *
  (option (list date * list (option Q)) * option (list string * list Q)))%type.

(** [update_performance_tabs] *)
Definition update_performance_tabs (selected : list string)
  : M (option (list performance_tab)) :=
  match selected with
  | [] => ret None
  | _ =>
      tabs <- mapM (fun ticker =>
                full_ticker <- dict_index ticker;;
                performance_chart <- plot_performance_chart full_ticker;;
                waterfall_chart <- plot_waterfall_chart full_ticker;;
                ret (ticker, (performance_chart, waterfall_chart))) selected;;
      ret (Some tabs)
  end.

(** The module-level state of [dumberg.py] that [add_ticker] touches. *)
Record ui := mkUi
  { ui_api : api; selector_options : list string;
    ticker_input : string; notifications : list string }.

Definition invalid_ticker_msg : string :=
  "Invalid Ticker: Unable to find company information.".

(** [add_ticker], run on the current value of the text input. *)
Definition add_ticker (u : ui) : ui :=
  let new_ticker := upper (ticker_input u) in
  let d := company_dict (ui_api u) in
  if negb (String.eqb new_ticker "") &&
     negb (existsb (String.eqb new_ticker) (dict_values d)) then
    match longName (info new_ticker) with
    | Some company_name =>
        let d' := dict_set company_name new_ticker d in
        mkUi (mkApi d') (dict_keys d') "" (notifications u)
    | None =>
        mkUi (ui_api u) (selector_options u) (ticker_input u)
             ((notifications u ++ [invalid_ticker_msg])%list)
    end
  else u.

End Dumberg.

(** A method that returns normally hands back the object it was given. *)
Definition preserves {A} (m : M A) : Prop :=
  forall s a s', m s = Ok (a, s') -> s' = s.

(** Sample histories: one session in each of the first two, or three,
    quarters of 2024. *)
Definition two_quarters : list session :=
  [mkSession (mkDate 2024 2 1) 100 100 100 100;
   mkSession (mkDate 2024 5 2) 110 110 110 110].

Definition three_quarters : list session :=
  [mkSession (mkDate 2024 2 1) 100 100 100 100;
   mkSession (mkDate 2024 5 2) 110 110 110 110;
   mkSession (mkDate 2024 8 1) 99 99 99 99].

(** A data source that knows no symbol. *)
Definition no_profile : string -> profile := fun _ => mkProfile None None.

(** A data source whose one-day and one-year histories are a single session. *)
Definition one_session : string -> period -> list session :=
  fun _ _ => [mkSession (mkDate 2024 5 2) 100 106 99 105].

(** A data source that only knows "AAPL". *)
Definition apple_profile : string -> profile :=
  fun t => if String.eqb t "AAPL" then mkProfile (Some "Apple Inc.") (Some (3 * billion))
           else mkProfile None None.

(** * Properties *)

(** ** Dicts *)

Lemma dict_get_key (k : string) (d : dict) :
  In k (dict_keys d) -> exists v, dict_get k d = Some v.
Proof.
  induction d as [|[k' v'] d IH]; simpl; [tauto|].
  intros [<-|H].
  - rewrite String.eqb_refl. eauto.
  - destruct (String.eqb k k'); eauto.
Qed.

Lemma dict_get_entry (k v : string) (d : dict) :
  NoDup (dict_keys d) -> In (k, v) d -> dict_get k d = Some v.
Proof.
  induction d as [|[k' v'] d IH]; simpl; [tauto|].
  intros Hnd [E|H]; inversion Hnd as [|? ? Hnotin Hnd']; subst.
  - inversion E; subst. rewrite String.eqb_refl. reflexivity.
  - destruct (String.eqb_spec k k') as [->|_].
    + exfalso. apply Hnotin. apply (in_map fst d (k', v) H).
    + auto.
Qed.

(** ** Running the monad *)

Lemma bind_ok {A B} (m : M A) (k : A -> M B) s a s' :
  m s = Ok (a, s') -> bind m k s = k a s'.
Proof. unfold bind. intros ->. reflexivity. Qed.

Section Claims.

Variable history : string -> period -> list session.
Variable info : string -> profile.
Variable download : string -> string -> string -> list session.

Lemma stock_rows_run (ts : list string) (s : api) :
  stock_rows history ts s = Ok (flat_map (stock_row_of history (company_dict s)) ts, s).
Proof.
  induction ts as [|c ts IH]; [reflexivity|].
  simpl. unfold bind at 1, get_dict, stock_row_of.
  unfold fetch_stock_data.
  destruct (history (dict_get_default c c (company_dict s)) P1d) as [|x xs];
    unfold bind, ret; rewrite IH; reflexivity.
Qed.

Lemma create_stock_dataframe_run (ts : list string) (s : api) :
  create_stock_dataframe history ts s =
  Ok (flat_map (stock_row_of history (company_dict s))
        (match ts with [] => dict_keys (company_dict s) | _ => ts end), s).
Proof.
  unfold create_stock_dataframe, bind at 1, get_dict.
  apply stock_rows_run.
Qed.

(** ** C1 *)

(** C1 (counterexample): on the closes [100; 110; 121] the cumulative return
    after the third session is not 21. *)
Lemma C1_cumulative_not_21 :
  ~ exists q, nth_error (returns_series [100; 110; 121]) 2 = Some (Some q) /\ q == 21.
Proof.
  intros [q [H E]]. vm_compute in H. inversion H; subst.
  vm_compute in E. discriminate.
Qed.

(** C1 (amended): on the closes [100; 110; 121] the cumulative return after
    the third session is [((110/100 - 1) + (121/110 - 1)) * 100], that is 20;
    the first session's entry is undefined (NaN). *)
Lemma C1_cumulative_is_20 :
  nth_error (returns_series [100; 110; 121]) 0 = Some None /\
  exists q, nth_error (returns_series [100; 110; 121]) 2 = Some (Some q) /\
            q == ((110 / 100 - 1) + (121 / 110 - 1)) * 100 /\ q == 20.
Proof.
  split; [reflexivity|].
  eexists. split; [reflexivity|]. split; vm_compute; reflexivity.
Qed.

(** ** C2 *)

Lemma row_status_up (r : stock_row) :
  row_status r = "Up" <-> Opening_Price r < Current_Price r.
Proof.
  unfold row_status, Qgtb.
  destruct (Qle_bool (Current_Price r) (Opening_Price r)) eqn:E; simpl.
  - apply Qle_bool_iff in E. split; [discriminate|].
    intros Hlt. exfalso. apply (Qlt_not_le _ _ Hlt E).
  - split; [intros _|reflexivity].
    apply Qnot_le_lt. intros Hle. apply Qle_bool_iff in Hle. congruence.
Qed.

(** C2: every row built by [create_stock_dataframe] has price change equal
    to current minus opening price, and [create_stock_table] classifies it
    "Up" exactly when that change is positive, "Down" otherwise. *)
Theorem C2_delta_and_status (ts : list string) (s s' s'' : api)
    (rows : list stock_row) (tbl : list table_row) :
  create_stock_dataframe history ts s = Ok (rows, s') ->
  create_stock_table rows s' = Ok (tbl, s'') ->
  Forall2 (fun r t =>
      Price_Change r = Current_Price r - Opening_Price r /\
      t_Ticker t = Ticker r /\
      (t_Status t = "Up" <-> 0 < Price_Change r) /\
      (t_Status t <> "Up" -> t_Status t = "Down")) rows tbl.
Proof.
  rewrite create_stock_dataframe_run. intros H1 H2.
  inversion H1; subst; clear H1. inversion H2; subst; clear H2.
  set (l := match ts with [] => _ | _ => ts end).
  induction l as [|c l IH]; simpl; [constructor|].
  rewrite map_app. apply Forall2_app; [|exact IH].
  unfold stock_row_of.
  destruct (history _ P1d) as [|x xs]; simpl; constructor; [|constructor].
  simpl. split; [reflexivity|]. split; [reflexivity|].
  pose proof (row_status_up (mkRow c (dict_get_default c c (company_dict s''))
     (s_close x) (s_open x) (s_close x - s_open x))) as U; simpl in U.
  split.
  - rewrite U. rewrite Qlt_minus_iff. reflexivity.
  - unfold row_status. destruct (Qgtb _ _); [congruence|reflexivity].
Qed.

(** ** C3 *)

Lemma rows_of_entries (d l : dict) :
  NoDup (dict_keys d) -> incl l d ->
  flat_map (stock_row_of history d) (map fst l) =
  flat_map (fun e => match history (snd e) P1d with
                     | x :: _ => [mkRow (fst e) (snd e) (s_close x) (s_open x)
                                        (s_close x - s_open x)]
                     | [] => [] end) l.
Proof.
  intros Hnd. induction l as [|[k v] l IH]; simpl; [reflexivity|].
  intros Hincl. rewrite IH by (intros e He; apply Hincl; right; exact He).
  unfold stock_row_of, dict_get_default.
  rewrite (dict_get_entry k v d Hnd) by (apply Hincl; left; reflexivity).
  reflexivity.
Qed.

(** C3: [create_stock_dataframe] with no identifiers goes through every
    entry of the registry, in order, and yields one row per entry whose
    current-price fetch returned data. *)
Theorem C3_empty_selection_all (s : api) :
  NoDup (dict_keys (company_dict s)) ->
  create_stock_dataframe history [] s =
  Ok (flat_map (fun e => match history (snd e) P1d with
                         | x :: _ => [mkRow (fst e) (snd e) (s_close x) (s_open x)
                                            (s_close x - s_open x)]
                         | [] => [] end) (company_dict s), s).
Proof.
  intros Hnd. rewrite create_stock_dataframe_run.
  unfold dict_keys at 1. rewrite rows_of_entries; auto using incl_refl.
Qed.

(** ** C4 *)

Lemma existsb_eqb_In (x : string) (l : list string) :
  existsb (String.eqb x) l = true <-> In x l.
Proof.
  rewrite existsb_exists. split.
  - intros [y [Hy E]]. apply String.eqb_eq in E. subst. exact Hy.
  - intros H. exists x. split; [exact H|apply String.eqb_refl].
Qed.

(** C4 (amended): when the profile of the upper-cased symbol has no long
    name, [add_ticker] leaves the registry exactly as it was; it reports the
    invalid-ticker notification exactly when the upper-cased symbol is
    non-empty and not yet a registered symbol, and is otherwise a silent
    no-op. *)
Theorem C4_invalid_ticker_registry_unchanged (u : ui) :
  longName (info (upper (ticker_input u))) = None ->
  ui_api (add_ticker info u) = ui_api u /\
  (notifications (add_ticker info u) = (notifications u ++ [invalid_ticker_msg])%list <->
   upper (ticker_input u) <> "" /\
   ~ In (upper (ticker_input u)) (dict_values (company_dict (ui_api u)))).
Proof.
  intros H. unfold add_ticker.
  destruct (String.eqb_spec (upper (ticker_input u)) "") as [E|E]; simpl.
  - split; [reflexivity|]. split; [|tauto].
    intros Hn. apply (f_equal (@length string)) in Hn.
    rewrite length_app in Hn. simpl in Hn. lia.
  - destruct (existsb (String.eqb (upper (ticker_input u)))
                (dict_values (company_dict (ui_api u)))) eqn:Ex; simpl.
    + apply existsb_eqb_In in Ex. split; [reflexivity|]. split; [|tauto].
      intros Hn. apply (f_equal (@length string)) in Hn.
      rewrite length_app in Hn. simpl in Hn. lia.
    + rewrite H. simpl. split; [reflexivity|]. split; [intros _|reflexivity].
      split; [exact E|]. rewrite <- existsb_eqb_In. congruence.
Qed.

(** ** C5 *)

Lemma market_caps_run (ts : list string) (s : api) :
  market_caps info ts s = Ok (map (market_cap_of info) ts, s).
Proof.
  induction ts as [|t ts IH]; [reflexivity|].
  simpl. unfold bind. rewrite IH. reflexivity.
Qed.

(** C5: the market-cap loop of [plot_donut_chart] yields one value per
    ticker, in the tickers' order: the raw market capitalisation divided by
    1e9, or 0 when the field is missing. *)
Theorem C5_market_caps_order (ts : list string) (s : api) :
  market_caps info ts s = Ok (map (market_cap_of info) ts, s) /\
  length (map (market_cap_of info) ts) = length ts /\
  (forall i t, nth_error ts i = Some t ->
     nth_error (map (market_cap_of info) ts) i = Some (market_cap_of info t)) /\
  (forall t v, marketCap (info t) = Some v -> market_cap_of info t = v / billion) /\
  (forall t, marketCap (info t) = None -> market_cap_of info t == 0).
Proof.
  split; [apply market_caps_run|]. split; [apply length_map|].
  split; [intros i t H; rewrite nth_error_map, H; reflexivity|].
  split; intros t; unfold market_cap_of.
  - intros v ->. reflexivity.
  - intros ->. reflexivity.
Qed.

(** ** C8 *)

(** C8: [company_dict.get(c, c)] gives the registered symbol of a display
    name and passes any other identifier through; resolving its result again
    changes nothing when that result is not itself a display name. *)
Theorem C8_resolve_pass_through (d : dict) (c : string) :
  (forall sym, dict_get c d = Some sym -> dict_get_default c c d = sym) /\
  (dict_get c d = None -> dict_get_default c c d = c) /\
  (dict_get (dict_get_default c c d) d = None ->
   dict_get_default (dict_get_default c c d) (dict_get_default c c d) d =
   dict_get_default c c d).
Proof.
  unfold dict_get_default.
  destruct (dict_get c d) as [v|] eqn:E;
    (split; [intros sym H; congruence|]);
    (split; [intros H; congruence|]);
    intros H; rewrite H; reflexivity.
Qed.

(** ** C9 *)

Lemma mapM_ok {A B} (f : A -> M B) (xs : list A) (s : api) :
  (forall x, In x xs -> exists y, f x s = Ok (y, s)) ->
  exists ys, mapM f xs s = Ok (ys, s).
Proof.
  induction xs as [|x xs IH]; simpl; intros H; [eexists; reflexivity|].
  destruct (H x (or_introl eq_refl)) as [y Hy].
  destruct IH as [ys Hys]; [intros; apply H; auto|].
  exists (y :: ys). unfold bind. rewrite Hy, Hys. reflexivity.
Qed.

Lemma dict_index_ok (c : string) (s : api) :
  In c (dict_keys (company_dict s)) -> exists v, dict_index c s = Ok (v, s).
Proof.
  intros H. destruct (dict_get_key c (company_dict s) H) as [v Hv].
  exists v. unfold dict_index, bind, get_dict. rewrite Hv. reflexivity.
Qed.

Lemma plot_performance_chart_ok (t : string) (s : api) :
  exists r, plot_performance_chart history t s = Ok (r, s).
Proof.
  unfold plot_performance_chart. destruct (history t P1y); eexists; reflexivity.
Qed.

Lemma plot_waterfall_chart_ok (t : string) (s : api) :
  exists r, plot_waterfall_chart history t s = Ok (r, s).
Proof.
  unfold plot_waterfall_chart. destruct (history t P1y); eexists; reflexivity.
Qed.

Lemma plot_donut_chart_ok (sel : list string) (s : api) :
  Forall (fun c => In c (dict_keys (company_dict s))) sel ->
  exists r, plot_donut_chart info sel s = Ok (r, s).
Proof.
  intros Hsel. rewrite Forall_forall in Hsel.
  destruct (mapM_ok dict_index sel s) as [ts Hts].
  { intros c Hc. apply dict_index_ok, Hsel, Hc. }
  unfold plot_donut_chart. rewrite (bind_ok _ _ _ _ _ Hts).
  rewrite (bind_ok _ _ _ _ _ (market_caps_run ts s)). eexists; reflexivity.
Qed.

(** C9 (amended): [create_stock_dataframe] completes for every list of
    identifiers; [plot_donut_chart], [update_donut_chart] and
    [update_performance_tabs] complete whenever every selected identifier is
    a key of the registry (as every option of the company selector is). *)
Theorem C9_no_crash_on_registered (s : api) (sel : list string) :
  (forall ts, exists r, create_stock_dataframe history ts s = Ok r) /\
  (Forall (fun c => In c (dict_keys (company_dict s))) sel ->
   (exists r, plot_donut_chart info sel s = Ok r) /\
   (exists r, update_donut_chart info sel s = Ok r) /\
   (exists r, update_performance_tabs history sel s = Ok r)).
Proof.
  split; [intros ts; rewrite create_stock_dataframe_run; eexists; reflexivity|].
  intros Hsel. destruct (plot_donut_chart_ok sel s Hsel) as [fig Hfig].
  split; [eexists; exact Hfig|]. split.
  - unfold update_donut_chart. destruct sel; [eexists; reflexivity|].
    rewrite (bind_ok _ _ _ _ _ Hfig). eexists; reflexivity.
  - unfold update_performance_tabs. destruct sel as [|c0 sel0]; [eexists; reflexivity|].
    rewrite Forall_forall in Hsel.
    match goal with |- context [bind (mapM ?f ?xs) _] =>
      destruct (mapM_ok f xs s) as [tabs Htabs] end;
      [|unfold bind at 1; rewrite Htabs; eexists; reflexivity].
    intros c Hc. destruct (dict_index_ok c s (Hsel c Hc)) as [v Hv].
    destruct (plot_performance_chart_ok v s) as [p Hp].
    destruct (plot_waterfall_chart_ok v s) as [w Hw].
    rewrite (bind_ok _ _ _ _ _ Hv), (bind_ok _ _ _ _ _ Hp), (bind_ok _ _ _ _ _ Hw).
    eexists; reflexivity.
Qed.

(** ** C10 *)

Lemma preserves_ret {A} (a : A) : preserves (ret a).
Proof. intros s b s' H. inversion H. reflexivity. Qed.

Lemma preserves_bind {A B} (m : M A) (k : A -> M B) :
  preserves m -> (forall a, preserves (k a)) -> preserves (bind m k).
Proof.
  intros Hm Hk s b s'' H. unfold bind in H.
  destruct (m s) as [[a s']|e] eqn:E; [|discriminate].
  apply Hk in H. apply Hm in E. congruence.
Qed.

Lemma preserves_get : preserves get_dict.
Proof. intros s d s' H. inversion H. reflexivity. Qed.

Lemma preserves_raise {A} (e : exn) : preserves (@raise A e).
Proof. intros s a s' H. discriminate. Qed.

Lemma preserves_mapM {A B} (f : A -> M B) (xs : list A) :
  (forall x, preserves (f x)) -> preserves (mapM f xs).
Proof.
  intros Hf. induction xs as [|x xs IH]; simpl.
  - apply preserves_ret.
  - apply preserves_bind; [apply Hf|intros y].
    apply preserves_bind; [exact IH|intros ys]. apply preserves_ret.
Qed.

Lemma preserves_dict_index (c : string) : preserves (dict_index c).
Proof.
  apply preserves_bind; [apply preserves_get|intros d].
  destruct (dict_get c d); [apply preserves_ret|apply preserves_raise].
Qed.

Lemma preserves_of_run {A} (m : M A) (f : api -> A) :
  (forall s, m s = Ok (f s, s)) -> preserves m.
Proof. intros Hm s a s' H. rewrite Hm in H. inversion H. reflexivity. Qed.

(** C10: none of [fetch_stock_data], [create_stock_dataframe],
    [create_stock_table], [plot_donut_chart], [plot_performance_chart],
    [plot_waterfall_chart] and [plot_candlestick] changes the API object
    (hence its [company_dict]) when it returns. *)
Theorem C10_read_only_methods (t : string) (ts sel : list string)
    (df : list stock_row) :
  preserves (fetch_stock_data history t) /\
  preserves (create_stock_dataframe history ts) /\
  preserves (create_stock_table df) /\
  preserves (plot_donut_chart info sel) /\
  preserves (plot_performance_chart history t) /\
  preserves (plot_waterfall_chart history t) /\
  preserves (plot_candlestick download).
Proof.
  split; [unfold fetch_stock_data; destruct (history t P1d); apply preserves_ret|].
  split; [apply (preserves_of_run _ _ (create_stock_dataframe_run ts))|].
  split; [apply preserves_ret|].
  split.
  { apply preserves_bind; [apply preserves_mapM, preserves_dict_index|intros ts'].
    apply preserves_bind; [apply (preserves_of_run _ _ (market_caps_run ts'))|].
    intros; apply preserves_ret. }
  split; [unfold plot_performance_chart; destruct (history t P1y); apply preserves_ret|].
  split; [unfold plot_waterfall_chart; destruct (history t P1y); apply preserves_ret|].
  apply preserves_ret.
Qed.

End Claims.

(** ** C6 and C7: the waterfall chart's points

    [go.Waterfall] pairs [x[i]] with [y[i]]; [x] is formatted from every
    quarter of [quarterly_changes] while [y] has the leading NaN dropped. *)

(** C6 (failing input): on a history with one session in each of the first
    two quarters of 2024, the waterfall's single point has the x label
    formatted from the first quarter's end date 2024-03-31, carrying the
    change into the second quarter. *)
Theorem C6_first_quarter_label_emitted :
  map fst (resample_q_last two_quarters) = [mkDate 2024 3 31; mkDate 2024 6 30] /\
  exists v,
    plot_waterfall_chart (fun _ _ => two_quarters) "X" init_api =
      Ok (Some (map (strftime "%Y-Q%q") [mkDate 2024 3 31; mkDate 2024 6 30], [v]),
          init_api) /\
    v == 10 /\
    combine (map (strftime "%Y-Q%q") [mkDate 2024 3 31; mkDate 2024 6 30]) [v] =
      [(strftime "%Y-Q%q" (mkDate 2024 3 31), v)].
Proof.
  split; [reflexivity|].
  eexists. split; [cbv; reflexivity|]. split; [reflexivity|reflexivity].
Qed.

(** C7 (failing input): on a history with one session in each of the first
    three quarters of 2024 (closes 100, 110, 99) every x label is the text
    "2024-Q%q", and the changes 10 and -10 of the second and third quarters
    sit at the labels of the first and second quarters. *)
Theorem C7_waterfall_labels :
  map (strftime "%Y-Q%q") [mkDate 2024 3 31; mkDate 2024 6 30; mkDate 2024 9 30] =
    ["2024-Q%q"; "2024-Q%q"; "2024-Q%q"] /\
  exists v1 v2,
    plot_waterfall_chart (fun _ _ => three_quarters) "X" init_api =
      Ok (Some (map (strftime "%Y-Q%q")
                  [mkDate 2024 3 31; mkDate 2024 6 30; mkDate 2024 9 30], [v1; v2]),
          init_api) /\
    v1 == 10 /\ v2 == -10 /\
    combine (map (strftime "%Y-Q%q")
               [mkDate 2024 3 31; mkDate 2024 6 30; mkDate 2024 9 30]) [v1; v2] =
      [("2024-Q%q", v1); ("2024-Q%q", v2)].
Proof.
  split; [reflexivity|].
  do 2 eexists. split; [cbv; reflexivity|].
  split; [reflexivity|]. split; [reflexivity|reflexivity].
Qed.

(** ** Counterexamples *)

(** C4 (counterexample): with a source that knows no symbol, submitting
    "aapl" (upper-cased to the already registered "AAPL") adds no
    invalid-ticker notification: the call is a silent no-op. *)
Lemma C4_registered_symbol_silent :
  longName (no_profile (upper "aapl")) = None /\
  notifications (add_ticker no_profile
                   (mkUi init_api (dict_keys (company_dict init_api)) "aapl" [])) = [] /\
  notifications (add_ticker no_profile
                   (mkUi init_api (dict_keys (company_dict init_api)) "aapl" []))
    <> [invalid_ticker_msg].
Proof.
  split; [reflexivity|]. split; [reflexivity|]. vm_compute. discriminate.
Qed.

(** C9 (counterexample): selecting an identifier that is not a registry key
    makes [plot_donut_chart] and [update_performance_tabs] raise [KeyError]. *)
Lemma C9_unregistered_selection_raises :
  plot_donut_chart no_profile ["XYZ"] init_api = Err (KeyError "XYZ") /\
  update_performance_tabs (fun _ _ => []) ["XYZ"] init_api = Err (KeyError "XYZ").
Proof. split; reflexivity. Qed.

(** ** Witnesses *)

Lemma C2_witness :
  create_stock_dataframe one_session ["Apple Inc."] init_api =
    Ok ([mkRow "Apple Inc." "AAPL" 105 100 (105 - 100)], init_api) /\
  create_stock_table [mkRow "Apple Inc." "AAPL" 105 100 (105 - 100)] init_api =
    Ok ([mkTableRow "AAPL" 105 "Up" "#4af6c3"], init_api) /\
  Forall2 (fun r t =>
      Price_Change r = Current_Price r - Opening_Price r /\
      t_Ticker t = Ticker r /\
      (t_Status t = "Up" <-> 0 < Price_Change r) /\
      (t_Status t <> "Up" -> t_Status t = "Down"))
    [mkRow "Apple Inc." "AAPL" 105 100 (105 - 100)]
    [mkTableRow "AAPL" 105 "Up" "#4af6c3"].
Proof.
  split; [reflexivity|]. split; [reflexivity|].
  apply (C2_delta_and_status one_session ["Apple Inc."] init_api init_api init_api);
    reflexivity.
Defined.

Lemma C3_witness :
  NoDup (dict_keys (company_dict init_api)) /\
  create_stock_dataframe one_session [] init_api =
  Ok (flat_map (fun e => match one_session (snd e) P1d with
                         | x :: _ => [mkRow (fst e) (snd e) (s_close x) (s_open x)
                                            (s_close x - s_open x)]
                         | [] => [] end) (company_dict init_api), init_api).
Proof.
  assert (Hnd : NoDup (dict_keys (company_dict init_api))).
  { simpl. repeat constructor; simpl; intros H;
      repeat (destruct H as [H|H]; [discriminate H|]); exact H. }
  split; [exact Hnd|]. apply (C3_empty_selection_all one_session init_api Hnd).
Defined.

Lemma C4_witness :
  longName (no_profile (upper "zzzzinvalid")) = None /\
  ui_api (add_ticker no_profile
            (mkUi init_api (dict_keys (company_dict init_api)) "zzzzinvalid" [])) =
    init_api /\
  (notifications (add_ticker no_profile
            (mkUi init_api (dict_keys (company_dict init_api)) "zzzzinvalid" [])) =
     [invalid_ticker_msg] <->
   upper "zzzzinvalid" <> "" /\
   ~ In (upper "zzzzinvalid") (dict_values (company_dict init_api))).
Proof.
  split; [reflexivity|].
  apply (C4_invalid_ticker_registry_unchanged no_profile
           (mkUi init_api (dict_keys (company_dict init_api)) "zzzzinvalid" [])).
  reflexivity.
Defined.

Lemma C5_witness :
  market_caps no_profile ["AAPL"; "MSFT"] init_api = Ok ([0 / billion; 0 / billion], init_api) /\
  market_cap_of no_profile "AAPL" == 0.
Proof.
  split.
  - apply (C5_market_caps_order no_profile ["AAPL"; "MSFT"] init_api).
  - apply (C5_market_caps_order no_profile ["AAPL"; "MSFT"] init_api). reflexivity.
Defined.

Lemma C8_witness :
  dict_get (dict_get_default "Apple Inc." "Apple Inc." (company_dict init_api))
    (company_dict init_api) = None /\
  dict_get_default "AAPL" "AAPL" (company_dict init_api) = "AAPL".
Proof.
  split; [reflexivity|].
  apply (C8_resolve_pass_through (company_dict init_api) "Apple Inc."). reflexivity.
Defined.

Lemma C9_witness :
  Forall (fun c => In c (dict_keys (company_dict init_api))) ["Apple Inc."; "Tesla Inc."] /\
  (exists r, plot_donut_chart no_profile ["Apple Inc."; "Tesla Inc."] init_api = Ok r) /\
  (exists r, update_donut_chart no_profile ["Apple Inc."; "Tesla Inc."] init_api = Ok r) /\
  (exists r, update_performance_tabs one_session ["Apple Inc."; "Tesla Inc."] init_api = Ok r).
Proof.
  assert (H : Forall (fun c => In c (dict_keys (company_dict init_api)))
                ["Apple Inc."; "Tesla Inc."]).
  { repeat constructor; simpl; tauto. }
  split; [exact H|].
  apply (C9_no_crash_on_registered one_session no_profile init_api
           ["Apple Inc."; "Tesla Inc."]).
  exact H.
Defined.

(** * Further properties of the code *)

(** ** Dict assignment *)

Lemma dict_set_get_same (k v : string) (d : dict) :
  dict_get k (dict_set k v d) = Some v.
Proof.
  induction d as [|[k' v'] d IH]; simpl; [rewrite String.eqb_refl; reflexivity|].
  destruct (String.eqb k k') eqn:E; simpl; rewrite E; [reflexivity|exact IH].
Qed.

Lemma dict_set_get_other (k v k0 : string) (d : dict) :
  k0 <> k -> dict_get k0 (dict_set k v d) = dict_get k0 d.
Proof.
  intros Hne. induction d as [|[k' v'] d IH]; simpl.
  - destruct (String.eqb_spec k0 k); [contradiction|reflexivity].
  - destruct (String.eqb_spec k k') as [->|_]; simpl.
    + destruct (String.eqb_spec k0 k'); [contradiction|reflexivity].
    + destruct (String.eqb k0 k'); [reflexivity|exact IH].
Qed.

Lemma dict_set_keys (k v : string) (d : dict) :
  dict_keys (dict_set k v d) =
  if existsb (String.eqb k) (dict_keys d) then dict_keys d else (dict_keys d ++ [k])%list.
Proof.
  unfold dict_keys.
  induction d as [|[k' v'] d IH]; simpl; [reflexivity|].
  destruct (String.eqb_spec k k') as [->|_]; simpl; [reflexivity|].
  rewrite IH. destruct (existsb _ _); reflexivity.
Qed.

Lemma dict_set_values_in (k v x : string) (d : dict) :
  In x (dict_values (dict_set k v d)) -> x = v \/ In x (dict_values d).
Proof.
  unfold dict_values.
  induction d as [|[k' v'] d IH]; simpl; [intros [H|[]]; left; congruence|].
  destruct (String.eqb k k'); simpl.
  - intros [H|H]; [left; congruence|right; right; exact H].
  - intros [H|H]; [right; left; exact H|]. destruct (IH H); tauto.
Qed.


Lemma dict_set_nodup_keys (k v : string) (d : dict) :
  NoDup (dict_keys d) -> NoDup (dict_keys (dict_set k v d)).
Proof.
  intros Hnd. rewrite dict_set_keys.
  destruct (existsb (String.eqb k) (dict_keys d)) eqn:E; [exact Hnd|].
  apply NoDup_app; [exact Hnd|repeat constructor; simpl; tauto|].
  intros a Ha [<-|[]]. apply existsb_eqb_In in Ha. congruence.
Qed.

Lemma dict_set_nodup_values (k v : string) (d : dict) :
  NoDup (dict_values d) -> ~ In v (dict_values d) ->
  NoDup (dict_values (dict_set k v d)).
Proof.
  unfold dict_values.
  induction d as [|[k' v'] d IH]; simpl; intros Hnd Hv.
  - repeat constructor; simpl; tauto.
  - inversion Hnd as [|? ? Hnotin Hnd']; subst.
    destruct (String.eqb k k'); simpl; constructor; [tauto|exact Hnd'| |].
    + intros Hin. apply (dict_set_values_in k v v' d) in Hin. intuition.
    + apply IH; tauto.
Qed.


(** X16: [d[k] = v] followed by [d.get(k)] gives [v]; every other key reads
    as before. *)
Theorem X_dict_set_lookup (k v : string) (d : dict) :
  dict_get k (dict_set k v d) = Some v /\
  (forall k0, k0 <> k -> dict_get k0 (dict_set k v d) = dict_get k0 d).
Proof.
  split; [apply dict_set_get_same|intros k0; apply dict_set_get_other].
Qed.

(** ** [str.upper()] *)

Lemma ascii_upper_idem (c : ascii) : ascii_upper (ascii_upper c) = ascii_upper c.
Proof.
  destruct c as [[] [] [] [] [] [] [] []]; reflexivity.
Qed.

Lemma upper_idem (s : string) : upper (upper s) = upper s.
Proof.
  induction s as [|c s IH]; simpl; [reflexivity|].
  rewrite ascii_upper_idem, IH. reflexivity.
Qed.

Section Registration.

Variable info : string -> profile.

(** X1: a non-empty, not yet registered (upper-cased) symbol whose profile
    has a long name is stored under that name; the selector then lists the
    registry's names, the text input is cleared, and every other name keeps
    its symbol. *)
Theorem X_add_ticker_registers (u : ui) (n : string) :
  upper (ticker_input u) <> "" ->
  ~ In (upper (ticker_input u)) (dict_values (company_dict (ui_api u))) ->
  longName (info (upper (ticker_input u))) = Some n ->
  let d' := company_dict (ui_api (add_ticker info u)) in
  d' = dict_set n (upper (ticker_input u)) (company_dict (ui_api u)) /\
  dict_get n d' = Some (upper (ticker_input u)) /\
  (forall k, k <> n -> dict_get k d' = dict_get k (company_dict (ui_api u))) /\
  selector_options (add_ticker info u) = dict_keys d' /\
  ticker_input (add_ticker info u) = "" /\
  notifications (add_ticker info u) = notifications u.
Proof.
  intros Hne Hnot Hn d'. subst d'. unfold add_ticker.
  destruct (String.eqb_spec (upper (ticker_input u)) "") as [E|_]; [contradiction|].
  destruct (existsb (String.eqb (upper (ticker_input u)))
              (dict_values (company_dict (ui_api u)))) eqn:Ex.
  { apply existsb_eqb_In in Ex. contradiction. }
  simpl. rewrite Hn. simpl.
  split; [reflexivity|]. split; [apply dict_set_get_same|].
  split; [intros k Hk; apply dict_set_get_other, Hk|].
  repeat split.
Qed.

(** X4: an empty symbol, or one already registered, makes [add_ticker] a
    no-op: the data source is not consulted and nothing changes. *)
Theorem X_add_ticker_guard_noop (u : ui) :
  upper (ticker_input u) = "" \/
  In (upper (ticker_input u)) (dict_values (company_dict (ui_api u))) ->
  add_ticker info u = u.
Proof.
  intros H. unfold add_ticker.
  destruct H as [H|H].
  - rewrite H. reflexivity.
  - apply existsb_eqb_In in H. rewrite H, andb_false_r. reflexivity.
Qed.

(** X2: [add_ticker] keeps the registry injective: if display names and
    symbols are each unique before, they are after. *)
Theorem X_add_ticker_keeps_unique (u : ui) :
  NoDup (dict_keys (company_dict (ui_api u))) ->
  NoDup (dict_values (company_dict (ui_api u))) ->
  NoDup (dict_keys (company_dict (ui_api (add_ticker info u)))) /\
  NoDup (dict_values (company_dict (ui_api (add_ticker info u)))).
Proof.
  intros Hk Hv. unfold add_ticker.
  destruct (negb _ && negb _) eqn:G; [|split; assumption].
  apply andb_true_iff in G as [_ G]. apply negb_true_iff in G.
  destruct (longName _) as [n|]; simpl; [|split; assumption].
  split; [apply dict_set_nodup_keys, Hk|].
  apply dict_set_nodup_values; [exact Hv|].
  rewrite <- existsb_eqb_In. congruence.
Qed.


(** X5: registration is case-insensitive: typing a symbol in any case
    changes the registry, the selector and the notifications exactly as
    typing it upper-cased. *)
Theorem X_add_ticker_case_insensitive (a : api) (opts : list string)
    (txt : string) (notes : list string) :
  let r1 := add_ticker info (mkUi a opts txt notes) in
  let r2 := add_ticker info (mkUi a opts (upper txt) notes) in
  ui_api r1 = ui_api r2 /\ selector_options r1 = selector_options r2 /\
  notifications r1 = notifications r2.
Proof.
  unfold add_ticker; simpl. rewrite upper_idem.
  destruct (negb _ && negb _); [|repeat split].
  destruct (longName _); repeat split.
Qed.


End Registration.

(** ** The stock table, the donut chart and the performance tabs *)

Lemma mapM_forall2 {A B} (f : A -> M B) (P : A -> B -> Prop) (xs : list A) (s : api) :
  (forall x, In x xs -> exists y, f x s = Ok (y, s) /\ P x y) ->
  exists ys, mapM f xs s = Ok (ys, s) /\ Forall2 P xs ys.
Proof.
  induction xs as [|x xs IH]; simpl; intros H; [exists []; split; constructor|].
  destruct (H x (or_introl eq_refl)) as [y [Hy Py]].
  destruct IH as [ys [Hys Pys]]; [intros; apply H; auto|].
  exists (y :: ys). split; [|constructor; assumption].
  unfold bind. rewrite Hy, Hys. reflexivity.
Qed.

Section Pipeline.

Variable history : string -> period -> list session.
Variable info : string -> profile.

Lemma stock_rows_companies (d : dict) (ts : list string) :
  map Company (flat_map (stock_row_of history d) ts) =
  filter (fun c => match history (dict_get_default c c d) P1d with
                   | [] => false | _ :: _ => true end) ts /\
  Forall (fun r => Ticker r = dict_get_default (Company r) (Company r) d)
    (flat_map (stock_row_of history d) ts).
Proof.
  induction ts as [|c ts [IH1 IH2]]; simpl; [split; [reflexivity|constructor]|].
  unfold stock_row_of at 1 3.
  destruct (history (dict_get_default c c d) P1d); simpl; [split; assumption|].
  split; [f_equal; exact IH1|constructor; [reflexivity|exact IH2]].
Qed.

(** X7: for a non-empty list of identifiers, [create_stock_dataframe] keeps,
    in their order, exactly the identifiers whose resolved ticker
    ([company_dict.get(c, c)]) has a one-day session, one row each, and
    records that resolved ticker in the row. *)
Theorem X_stock_dataframe_rows (ts : list string) (s : api) :
  ts <> [] ->
  exists rows,
    create_stock_dataframe history ts s = Ok (rows, s) /\
    map Company rows =
      filter (fun c => match history (dict_get_default c c (company_dict s)) P1d with
                       | [] => false | _ :: _ => true end) ts /\
    Forall (fun r => Ticker r = dict_get_default (Company r) (Company r) (company_dict s))
      rows.
Proof.
  intros Hts. rewrite create_stock_dataframe_run.
  destruct ts as [|c ts]; [contradiction|].
  eexists. split; [reflexivity|]. apply stock_rows_companies.
Qed.

(** X8: [create_stock_table] gives one table row per frame row, in order,
    with the frame's ticker and current price, and colours a row green
    ("#4af6c3") when its status is "Up" and red ("#ff433d") when "Down". *)
Theorem X_stock_table_rows (df : list stock_row) (s : api) :
  exists tbl,
    create_stock_table df s = Ok (tbl, s) /\
    map t_Ticker tbl = map Ticker df /\
    map t_Price tbl = map Current_Price df /\
    Forall (fun t => (t_Status t = "Up" /\ t_Color t = "#4af6c3") \/
                     (t_Status t = "Down" /\ t_Color t = "#ff433d")) tbl.
Proof.
  eexists. split; [reflexivity|].
  induction df as [|r df [IH1 [IH2 IH3]]]; simpl; [repeat constructor|].
  split; [f_equal; exact IH1|]. split; [f_equal; exact IH2|].
  constructor; [|exact IH3].
  unfold row_status. destruct (Qgtb _ _); [left|right]; split; reflexivity.
Qed.

(** X9: the stock-table callback shows the prompt for an empty selection
    and otherwise builds the table from the selected identifiers only, so
    the dashboard never reaches the all-companies default of
    [create_stock_dataframe]. *)
Theorem X_update_stock_table (sel : list string) (s : api) :
  (sel = [] -> update_stock_table history sel s = Ok (None, s)) /\
  (sel <> [] ->
   exists tbl,
     update_stock_table history sel s = Ok (Some tbl, s) /\
     create_stock_table (flat_map (stock_row_of history (company_dict s)) sel) s =
       Ok (tbl, s)).
Proof.
  split; [intros ->; reflexivity|].
  intros Hsel. destruct sel as [|c sel]; [contradiction|].
  eexists. split; [|reflexivity].
  unfold update_stock_table. rewrite (bind_ok _ _ _ _ _ (create_stock_dataframe_run _ _ _)).
  reflexivity.
Qed.

(** X10: when every selected company is a registry key, the donut chart's
    labels are the companies' registered symbols, in selection order, and
    its values are their market caps in billions, one per label. *)
Theorem X_donut_labels_values (sel : list string) (s : api) :
  Forall (fun c => In c (dict_keys (company_dict s))) sel ->
  exists tickers,
    plot_donut_chart info sel s = Ok ((tickers, map (market_cap_of info) tickers), s) /\
    Forall2 (fun c t => dict_get c (company_dict s) = Some t) sel tickers.
Proof.
  intros Hsel. rewrite Forall_forall in Hsel.
  destruct (mapM_forall2 dict_index (fun c t => dict_get c (company_dict s) = Some t)
              sel s) as [ts [Hts P]].
  { intros c Hc. destruct (dict_get_key c _ (Hsel c Hc)) as [v Hv].
    exists v. split; [|exact Hv].
    unfold dict_index, bind, get_dict. rewrite Hv. reflexivity. }
  exists ts. split; [|exact P].
  unfold plot_donut_chart. rewrite (bind_ok _ _ _ _ _ Hts).
  rewrite (bind_ok _ _ _ _ _ (market_caps_run info ts s)). reflexivity.
Qed.

(** X11: for a non-empty selection of registry keys, the performance tabs
    are one tab per selected company, in selection order, titled with the
    company's name and holding the performance and waterfall charts of its
    registered symbol. *)
Theorem X_performance_tabs (sel : list string) (s : api) :
  sel <> [] ->
  Forall (fun c => In c (dict_keys (company_dict s))) sel ->
  exists tabs,
    update_performance_tabs history sel s = Ok (Some tabs, s) /\
    Forall2 (fun c tab =>
        fst tab = c /\
        exists t, dict_get c (company_dict s) = Some t /\
                  plot_performance_chart history t s = Ok (fst (snd tab), s) /\
                  plot_waterfall_chart history t s = Ok (snd (snd tab), s)) sel tabs.
Proof.
  intros Hne Hsel. rewrite Forall_forall in Hsel.
  destruct sel as [|c0 sel0]; [contradiction|].
  unfold update_performance_tabs.
  match goal with |- context [bind (mapM ?f ?xs) _] =>
    destruct (mapM_forall2 f (fun c tab =>
        fst tab = c /\
        exists t, dict_get c (company_dict s) = Some t /\
                  plot_performance_chart history t s = Ok (fst (snd tab), s) /\
                  plot_waterfall_chart history t s = Ok (snd (snd tab), s)) xs s)
      as [tabs [Htabs P]] end.
  - intros c Hc. destruct (dict_get_key c _ (Hsel c Hc)) as [v Hv].
    assert (Hi : dict_index c s = Ok (v, s)).
    { unfold dict_index, bind, get_dict. rewrite Hv. reflexivity. }
    destruct (plot_performance_chart_ok history v s) as [p Hp].
    destruct (plot_waterfall_chart_ok history v s) as [w Hw].
    exists (c, (p, w)).
    rewrite (bind_ok _ _ _ _ _ Hi), (bind_ok _ _ _ _ _ Hp), (bind_ok _ _ _ _ _ Hw).
    split; [reflexivity|]. split; [reflexivity|]. exists v. auto.
  - exists tabs. split; [|exact P]. unfold bind at 1. rewrite Htabs. reflexivity.
Qed.

End Pipeline.

(** ** The cumulative-return series *)







(** ** The waterfall chart's axes *)

Lemma length_pad (o : option Q) (l : list (option Q)) : length (pad_from o l) = length l.
Proof. revert o. induction l as [|[x|] l IH]; intros o; simpl; rewrite ?IH; reflexivity. Qed.

Lemma length_pct_from (o : option Q) (l : list (option Q)) : length (pct_from o l) = length l.
Proof. revert o. induction l as [|x l IH]; intros o; simpl; rewrite ?IH; reflexivity. Qed.

Lemma length_dropna (l : list (option Q)) : (length (dropna l) <= length l)%nat.
Proof. induction l as [|[x|] l IH]; simpl; lia. Qed.

Lemma length_pct_change (l : list (option Q)) : length (pct_change l) = length l.
Proof.
  unfold pct_change. rewrite <- (length_pad None l).
  destruct (pad_from None l); simpl; rewrite ?length_pct_from; reflexivity.
Qed.

Lemma map_snd_combine {A B} (l1 : list A) (l2 : list B) :
  length l1 = length l2 -> map snd (combine l1 l2) = l2.
Proof.
  revert l2. induction l1 as [|x l1 IH]; intros [|y l2] H; simpl in *;
    try discriminate; [reflexivity|]. rewrite IH by lia. reflexivity.
Qed.

Lemma quarterly_changes_values (data : list session) :
  map snd (quarterly_changes data) =
  scale100 (pct_change (map snd (resample_q_last data))).
Proof.
  unfold quarterly_changes. apply map_snd_combine.
  unfold scale100. rewrite length_map, length_map, length_pct_change, length_map.
  reflexivity.
Qed.

Lemma length_quarterly_changes (data : list session) :
  length (quarterly_changes data) = length (resample_q_last data).
Proof.
  rewrite <- (length_map snd (quarterly_changes data)), quarterly_changes_values.
  unfold scale100. rewrite length_map, length_pct_change, length_map. reflexivity.
Qed.

Lemma dropna_pct_change_short (l : list (option Q)) :
  l <> [] -> (length (dropna (scale100 (pct_change l))) < length l)%nat.
Proof.
  intros Hne. unfold pct_change.
  assert (Hlen := length_pad None l).
  destruct (pad_from None l) as [|z zs]; [destruct l; [contradiction|discriminate]|].
  simpl. eapply Nat.le_lt_trans; [apply length_dropna|].
  unfold scale100. rewrite length_map, length_pct_from. simpl in Hlen. lia.
Qed.

(** X13: [plot_waterfall_chart] draws the empty figure exactly when the
    one-year history is empty; otherwise [x] has one label per resampled
    quarter and, when there is at least one quarter, [y] has fewer values
    than [x] has labels. *)
Theorem X_waterfall_axes (history : string -> period -> list session) (t : string)
    (s : api) :
  (history t P1y = [] -> plot_waterfall_chart history t s = Ok (None, s)) /\
  (history t P1y <> [] ->
   exists x y,
     plot_waterfall_chart history t s = Ok (Some (x, y), s) /\
     length x = length (resample_q_last (history t P1y)) /\
     (x <> [] -> (length y < length x)%nat)).
Proof.
  unfold plot_waterfall_chart.
  split; [intros ->; reflexivity|].
  intros Hne. destruct (history t P1y) as [|s0 rest] eqn:E; [contradiction|].
  do 2 eexists. split; [reflexivity|].
  rewrite length_map, length_quarterly_changes.
  split; [reflexivity|].
  intros Hx. rewrite quarterly_changes_values.
  rewrite <- (length_map snd (resample_q_last (s0 :: rest))).
  apply dropna_pct_change_short.
  intros Hq. apply Hx. apply map_eq_nil in Hq.
  assert (H0 := length_quarterly_changes (s0 :: rest)). rewrite Hq in H0.
  destruct (quarterly_changes _); [reflexivity|discriminate].
Qed.

(** ** Quarterly resampling *)

Open Scope list_scope.

Ltac div_facts a b :=
  pose proof (Z.div_mod a b ltac:(lia)); pose proof (Z.mod_pos_bound a b ltac:(lia)).

(** X14: the bin label [quarter_end k] lies in quarter [k] and is the end of
    March, June, September or December; a date with a month in 1..12 falls
    in the bin labelled with the same year and with the first quarter-end
    month at or after its own month. *)
Theorem X_quarter_end_index (k : Z) (d : date) :
  quarter_index (quarter_end k) = k /\
  (month (quarter_end k) = 3 \/ month (quarter_end k) = 6 \/
   month (quarter_end k) = 9 \/ month (quarter_end k) = 12)%Z /\
  ((1 <= month d <= 12)%Z ->
   year (quarter_end (quarter_index d)) = year d /\
   (month d <= month (quarter_end (quarter_index d)) < month d + 3)%Z).
Proof.
  unfold quarter_index, quarter_end. cbn [year month day].
  div_facts k 4%Z. div_facts (3 * (k mod 4 + 1) - 1)%Z 3%Z.
  split; [lia|]. split; [lia|].
  intros Hm. set (q := ((month d - 1) / 3)%Z).
  div_facts (month d - 1)%Z 3%Z. div_facts (year d * 4 + q)%Z 4%Z.
  subst q. split; lia.
Qed.

Lemma last_close_in_snoc (k : Z) (h : list session) (x : session) :
  last_close_in k (h ++ [x]) =
  if (quarter_index (s_date x) =? k)%Z then Some (s_close x) else last_close_in k h.
Proof. unfold last_close_in. rewrite fold_left_app. reflexivity. Qed.

Lemma last_close_in_cases (k : Z) (h : list session) :
  (exists h1 x h2, h = h1 ++ x :: h2 /\ quarter_index (s_date x) = k /\
     Forall (fun y => quarter_index (s_date y) <> k) h2 /\
     last_close_in k h = Some (s_close x)) \/
  (Forall (fun y => quarter_index (s_date y) <> k) h /\ last_close_in k h = None).
Proof.
  induction h as [|x h IH] using rev_ind; [right; split; [constructor|reflexivity]|].
  rewrite last_close_in_snoc.
  destruct (Z.eqb_spec (quarter_index (s_date x)) k) as [E|E].
  - left. exists h, x, []. split; [reflexivity|]. repeat split; [exact E|constructor].
  - destruct IH as [[h1 [y [h2 [-> [Ey [Fy Ly]]]]]]|[F L]].
    + left. exists h1, y, (h2 ++ [x]). rewrite <- app_assoc. split; [reflexivity|].
      split; [exact Ey|]. split; [|exact Ly].
      apply Forall_app. split; [exact Fy|repeat constructor; exact E].
    + right. split; [|exact L]. apply Forall_app. split; [exact F|repeat constructor; exact E].
Qed.

(** X15: every bin of [resample('Q').last()] is labelled with a quarter end
    and holds the close of the latest session of that quarter in the
    history, or NaN when the history has no session in it. *)
Theorem X_resample_bins (h : list session) (d : date) (o : option Q) :
  In (d, o) (resample_q_last h) ->
  exists k, d = quarter_end k /\
    ((exists h1 x h2, h = h1 ++ x :: h2 /\ quarter_index (s_date x) = k /\
        Forall (fun y => quarter_index (s_date y) <> k) h2 /\ o = Some (s_close x)) \/
     (Forall (fun y => quarter_index (s_date y) <> k) h /\ o = None)).
Proof.
  unfold resample_q_last. destruct h as [|s0 rest] eqn:Eh; [simpl; tauto|].
  rewrite <- Eh. intros Hin. apply in_map_iff in Hin as [n [E _]].
  set (k := (quarter_index (s_date s0) + Z.of_nat n)%Z) in E.
  inversion E; subst d o. exists k. split; [reflexivity|].
  destruct (last_close_in_cases k h) as [[h1 [x [h2 [Hh [Hx [F L]]]]]]|[F L]].
  - left. exists h1, x, h2. rewrite L. auto.
  - right. rewrite L. auto.
Qed.

(** ** Witnesses of the further properties *)

Lemma X_add_ticker_registers_witness :
  upper "aapl" <> "" /\ ~ In (upper "aapl") (dict_values []) /\
  longName (apple_profile (upper "aapl")) = Some "Apple Inc." /\
  company_dict (ui_api (add_ticker apple_profile (mkUi (mkApi []) [] "aapl" []))) =
    [("Apple Inc.", "AAPL")].
Proof.
  assert (H1 : upper "aapl" <> "") by (vm_compute; discriminate).
  assert (H2 : ~ In (upper "aapl") (dict_values [])) by (simpl; tauto).
  assert (H3 : longName (apple_profile (upper "aapl")) = Some "Apple Inc.") by reflexivity.
  split; [exact H1|]. split; [exact H2|]. split; [exact H3|].
  destruct (X_add_ticker_registers apple_profile (mkUi (mkApi []) [] "aapl" [])
              "Apple Inc." H1 H2 H3) as [E _].
  rewrite E. reflexivity.
Defined.

Lemma X_add_ticker_guard_noop_witness :
  In (upper "aapl") (dict_values (company_dict init_api)) /\
  add_ticker apple_profile (mkUi init_api [] "aapl" []) = mkUi init_api [] "aapl" [].
Proof.
  assert (H : In (upper "aapl") (dict_values (company_dict init_api))) by (simpl; tauto).
  split; [exact H|].
  apply (X_add_ticker_guard_noop apple_profile (mkUi init_api [] "aapl" [])). right. exact H.
Defined.

Lemma X_add_ticker_keeps_unique_witness :
  NoDup (dict_keys (company_dict (ui_api (add_ticker apple_profile
                                            (mkUi (mkApi []) [] "aapl" []))))).
Proof.
  apply (X_add_ticker_keeps_unique apple_profile (mkUi (mkApi []) [] "aapl" []));
    simpl; constructor.
Defined.

Lemma X_stock_dataframe_rows_witness :
  ["Apple Inc."; "XYZ"] <> [] /\
  exists rows,
    create_stock_dataframe one_session ["Apple Inc."; "XYZ"] init_api = Ok (rows, init_api) /\
    map Company rows = ["Apple Inc."; "XYZ"].
Proof.
  assert (H : ["Apple Inc."; "XYZ"] <> []) by discriminate.
  split; [exact H|].
  destruct (X_stock_dataframe_rows one_session ["Apple Inc."; "XYZ"] init_api H)
    as [rows [E [C _]]].
  exists rows. split; [exact E|]. rewrite C. reflexivity.
Defined.

Lemma X_update_stock_table_witness :
  ["Apple Inc."] <> [] /\
  exists tbl, update_stock_table one_session ["Apple Inc."] init_api = Ok (Some tbl, init_api).
Proof.
  assert (H : ["Apple Inc."] <> []) by discriminate.
  split; [exact H|].
  destruct (proj2 (X_update_stock_table one_session ["Apple Inc."] init_api) H)
    as [tbl [E _]].
  exists tbl. exact E.
Defined.

Lemma X_donut_labels_values_witness :
  Forall (fun c => In c (dict_keys (company_dict init_api))) ["Tesla Inc."; "Apple Inc."] /\
  exists tickers,
    plot_donut_chart apple_profile ["Tesla Inc."; "Apple Inc."] init_api =
      Ok ((tickers, map (market_cap_of apple_profile) tickers), init_api).
Proof.
  assert (H : Forall (fun c => In c (dict_keys (company_dict init_api)))
                ["Tesla Inc."; "Apple Inc."]) by (repeat constructor; simpl; tauto).
  split; [exact H|].
  destruct (X_donut_labels_values apple_profile _ init_api H) as [ts [E _]].
  exists ts. exact E.
Defined.

Lemma X_performance_tabs_witness :
  ["Apple Inc."] <> [] /\
  Forall (fun c => In c (dict_keys (company_dict init_api))) ["Apple Inc."] /\
  exists tabs, update_performance_tabs one_session ["Apple Inc."] init_api =
                 Ok (Some tabs, init_api).
Proof.
  assert (H1 : ["Apple Inc."] <> []) by discriminate.
  assert (H2 : Forall (fun c => In c (dict_keys (company_dict init_api))) ["Apple Inc."])
    by (repeat constructor; simpl; tauto).
  split; [exact H1|]. split; [exact H2|].
  destruct (X_performance_tabs one_session _ init_api H1 H2) as [tabs [E _]].
  exists tabs. exact E.
Defined.


Lemma X_waterfall_axes_witness :
  two_quarters <> [] /\
  exists x y,
    plot_waterfall_chart (fun _ _ => two_quarters) "X" init_api = Ok (Some (x, y), init_api) /\
    length x = 2%nat.
Proof.
  assert (H : (fun _ _ => two_quarters) "X" P1y <> []) by discriminate.
  split; [exact H|].
  destruct (proj2 (X_waterfall_axes (fun _ _ => two_quarters) "X" init_api) H)
    as [x [y [E [L _]]]].
  exists x, y. split; [exact E|]. rewrite L. reflexivity.
Defined.

Lemma X_quarter_end_index_witness :
  (1 <= month (mkDate 2024 5 2) <= 12)%Z /\
  year (quarter_end (quarter_index (mkDate 2024 5 2))) = 2024%Z.
Proof.
  assert (H : (1 <= month (mkDate 2024 5 2) <= 12)%Z) by (simpl; lia).
  split; [exact H|].
  exact (proj1 (proj2 (proj2 (X_quarter_end_index 0 (mkDate 2024 5 2))) H)).
Defined.

Lemma X_resample_bins_witness :
  In (mkDate 2024 6 30, Some 110) (resample_q_last two_quarters) /\
  exists k, mkDate 2024 6 30 = quarter_end k.
Proof.
  assert (H : In (mkDate 2024 6 30, Some 110) (resample_q_last two_quarters)).
  { vm_compute. right. left. reflexivity. }
  split; [exact H|].
  destruct (X_resample_bins two_quarters _ _ H) as [k [E _]]. exists k. exact E.
Defined.

Lemma X_dict_set_lookup_witness :
  "MSFT" <> "Apple Inc." /\
  dict_get "MSFT" (dict_set "Apple Inc." "AAPL" [("MSFT", "M")]) = Some "M".
Proof.
  assert (H : "MSFT" <> "Apple Inc.") by discriminate.
  split; [exact H|].
  exact (proj2 (X_dict_set_lookup "Apple Inc." "AAPL" [("MSFT", "M")]) "MSFT" H).
Defined.
